(** * Request/response logging interceptor (ZapLog.go)

    A shallow embedding of [InitLogger], [ensureDir] and [HttpLogger] from
    package [logger], together with the parts of the Go runtime they call
    into.  Go strings are [string], byte slices are [list ascii], maps with
    string keys are [gmap string _].  Code that can panic returns an
    [outcome]. *)

From stdpp Require Import base gmap strings list.
From Stdlib Require Import ZArith Ascii String.

Open Scope string_scope.

(** ** Text helpers of the Go standard library and of gin *)

Module GoStrings.

(** [strings.SplitN(s, sep, 2)[0]] for a one-byte separator: the text in
    front of the first separator, or all of [s] when there is none. *)
Fixpoint before_first (sep : ascii) (s : string) : string :=
  match s with
  | EmptyString => EmptyString
  | String c rest =>
      if Ascii.eqb c sep then EmptyString else String c (before_first sep rest)
  end.

Definition SplitN2_head (s : string) : string := before_first ";" s.

(** gin's [filterFlags]: cut at the first space or semicolon. *)
Fixpoint filterFlags (content : string) : string :=
  match content with
  | EmptyString => EmptyString
  | String char rest =>
      if Ascii.eqb char " " || Ascii.eqb char ";" then EmptyString
      else String char (filterFlags rest)
  end.

(** [strings.Contains(s, string(c))]. *)
Fixpoint contains_byte (c : ascii) (s : string) : bool :=
  match s with
  | EmptyString => false
  | String d rest => Ascii.eqb d c || contains_byte c rest
  end.

(** [fmt.Sprintf("[UNSUPPORTED CONTENT TYPE: %s]", ct)]. *)
Definition unsupported_placeholder (ct : string) : string :=
  "[UNSUPPORTED CONTENT TYPE: " ++ ct ++ "]".

Definition binary_placeholder : string := "[BINARY DATA]".

End GoStrings.
Export GoStrings.

(** ** The two content-type switches of [HttpLogger] *)

(** Arms of [switch c.ContentType()] on the request side. *)
Inductive ReqArm := ReqJSON | ReqForm | ReqOctet | ReqDefault.

Definition request_arm (ct : string) : ReqArm :=
  if String.eqb ct "application/json" then ReqJSON
  else if String.eqb ct "application/x-www-form-urlencoded"
          || String.eqb ct "multipart/form-data" then ReqForm
  else if String.eqb ct "application/octet-stream" then ReqOctet
  else ReqDefault.

(** Arms of [switch respCT] on the response side. *)
Inductive RespArm := RespJSON | RespForm | RespBinary | RespDefault.

Definition response_arm (respCT : string) : RespArm :=
  if String.eqb respCT "application/json" then RespJSON
  else if String.eqb respCT "application/x-www-form-urlencoded"
          || String.eqb respCT "multipart/form-data" then RespForm
  else if String.eqb respCT "audio/mpeg" || String.eqb respCT "text/html"
          || String.eqb respCT "application/octet-stream" then RespBinary
  else RespDefault.

(** The three-way policy the specification speaks of. *)
Inductive Policy := Passthrough | BinaryPlaceholder | UnsupportedPlaceholder.

Definition request_policy (ct : string) : Policy :=
  match request_arm ct with
  | ReqJSON | ReqForm => Passthrough
  | ReqOctet => BinaryPlaceholder
  | ReqDefault => UnsupportedPlaceholder
  end.

Definition response_policy (ct : string) : Policy :=
  match response_arm ct with
  | RespJSON | RespForm => Passthrough
  | RespBinary => BinaryPlaceholder
  | RespDefault => UnsupportedPlaceholder
  end.

(** ** net/http: headers, bodies, requests *)

Module Http.

(** [http.Header] and [url.Values] are both [map[string][]string]. *)
Abbreviation Header := (gmap string (list string)).
Abbreviation Values := (gmap string (list string)).

(** [Header.Get] for a key already in canonical form (both keys the
    interceptor asks for, [X-Request-Id] and [Content-Type], are): the
    first value stored under the key, or the empty string. *)
Definition Header_Get (h : Header) (key : string) : string :=
  match h !! key with
  | Some (v :: _) => v
  | _ => ""
  end.

(** An [io.ReadCloser]: the bytes still to be delivered, whether the
    stream ends in a read error instead of a clean EOF, and whether it
    is an [*http.maxBytesReader]. *)
Record Reader := {
  pending : list ascii;
  read_err : bool;
  is_maxBytesReader : bool;
}.

(** [io.NopCloser(bytes.NewBuffer(b))]. *)
Definition NewBuffer (b : list ascii) : Reader :=
  {| pending := b; read_err := false; is_maxBytesReader := false |}.

Definition drained (r : Reader) : Reader :=
  {| pending := []; read_err := read_err r;
     is_maxBytesReader := is_maxBytesReader r |}.

(** [io.ReadAll]: everything up to EOF or the first error; the bytes
    read so far are returned in both cases. *)
Definition ReadAll (r : Reader) : list ascii * bool * Reader :=
  (pending r, read_err r, drained r).

Fixpoint take_upto (n : Z) (l : list ascii) : list ascii :=
  match l with
  | [] => []
  | x :: l' => if (n <=? 0)%Z then [] else x :: take_upto (n - 1) l'
  end.

Fixpoint drop_upto (n : Z) (l : list ascii) : list ascii :=
  match l with
  | [] => []
  | x :: l' => if (n <=? 0)%Z then l else drop_upto (n - 1) l'
  end.

(** [io.ReadAll(io.LimitReader(r, n))]: at most [n] bytes; the error of
    the underlying stream shows only when the limit was not reached. *)
Definition ReadAll_limited (n : Z) (r : Reader) : list ascii * bool * Reader :=
  if (Z.of_nat (List.length (pending r)) <? n)%Z then ReadAll r
  else (take_upto n (pending r), false,
        {| pending := drop_upto n (pending r); read_err := read_err r;
           is_maxBytesReader := is_maxBytesReader r |}).

(** The fields of [*http.Request] the interceptor and [ParseForm] touch.
    [None] in [Form] and [PostForm] is Go's nil map. *)
Record Request := {
  Method : string;
  URL_Path : string;
  URL_RawQuery : string;
  Headers : Header;
  Body : Reader;
  Form : option Values;
  PostForm : option Values;
}.

Definition set_Body (b : Reader) (r : Request) : Request :=
  {| Method := Method r; URL_Path := URL_Path r;
     URL_RawQuery := URL_RawQuery r; Headers := Headers r;
     Body := b; Form := Form r; PostForm := PostForm r |}.

Definition set_Forms (f pf : option Values) (r : Request) : Request :=
  {| Method := Method r; URL_Path := URL_Path r;
     URL_RawQuery := URL_RawQuery r; Headers := Headers r;
     Body := Body r; Form := f; PostForm := pf |}.

(** [copyValues(dst, src)]: append the values of [src] key by key. *)
Definition copyValues (dst src : Values) : Values :=
  union_with (fun d s => Some (d ++ s)%list) dst src.

(** gin's [Context.ContentType]. *)
Definition ContentType (r : Request) : string :=
  filterFlags (Header_Get (Headers r) "Content-Type").

End Http.
Export Http.

(** ** encoding/json: the scanner behind [json.Unmarshal] *)

Module Json.

Inductive ParseState := parseObjectKey | parseObjectValue | parseArrayValue.

(** The scanner's [step] field: one constructor per state function. *)
Inductive Step :=
| stateBeginValueOrEmpty | stateBeginValue | stateBeginStringOrEmpty
| stateBeginString | stateEndValue | stateEndTop
| stateInString | stateInStringEsc | stateInStringEscU
| stateInStringEscU1 | stateInStringEscU12 | stateInStringEscU123
| stateNeg | state1 | state0 | stateDot | stateDot0
| stateE | stateESign | stateE0
| stateT | stateTr | stateTru
| stateF | stateFa | stateFal | stateFals
| stateN | stateNu | stateNul
| stateError.

Inductive Op :=
| scanContinue | scanBeginLiteral | scanBeginObject | scanObjectKey
| scanObjectValue | scanEndObject | scanBeginArray | scanArrayValue
| scanEndArray | scanSkipSpace | scanEnd | scanError.

(** [parseState] is kept with its top (the slice's last element) first. *)
Record scanner := {
  step : Step;
  parseState : list ParseState;
  endTop : bool;
  err : bool;
}.

Definition maxNestingDepth : Z := 10000.

Definition with_step (st : Step) (s : scanner) : scanner :=
  {| step := st; parseState := parseState s; endTop := endTop s; err := err s |}.

(** [s.error(c, msg)]. *)
Definition scan_error (s : scanner) : scanner * Op :=
  ({| step := stateError; parseState := parseState s;
      endTop := endTop s; err := true |}, scanError).

Definition reset : scanner :=
  {| step := stateBeginValue; parseState := []; endTop := false; err := false |}.

Definition pushParseState (s : scanner) (newParseState : ParseState)
    (successState : Op) : scanner * Op :=
  let s' := {| step := step s; parseState := newParseState :: parseState s;
               endTop := endTop s; err := err s |} in
  if (Z.of_nat (List.length (parseState s')) <=? maxNestingDepth)%Z
  then (s', successState) else scan_error s'.

Definition popParseState (s : scanner) : scanner :=
  match parseState s with
  | [] => s
  | _ :: [] => {| step := stateEndTop; parseState := []; endTop := true; err := err s |}
  | _ :: rest => {| step := stateEndValue; parseState := rest;
                    endTop := endTop s; err := err s |}
  end.

Definition set_top (p : ParseState) (s : scanner) : scanner :=
  {| step := step s; parseState := p :: tail (parseState s);
     endTop := endTop s; err := err s |}.

Definition isSpace (c : ascii) : bool :=
  match c with
  | " "%char | "009"%char | "013"%char | "010"%char => true
  | _ => false
  end.

Definition isDigit (c : ascii) : bool :=
  let n := N_of_ascii c in ((48 <=? n) && (n <=? 57))%N.

Definition isDigit19 (c : ascii) : bool :=
  let n := N_of_ascii c in ((49 <=? n) && (n <=? 57))%N.

Definition isHex (c : ascii) : bool :=
  let n := N_of_ascii c in
  (((48 <=? n) && (n <=? 57)) || ((97 <=? n) && (n <=? 102))
   || ((65 <=? n) && (n <=? 70)))%N.

Definition do_stateEndTop (s : scanner) (c : ascii) : scanner * Op :=
  if isSpace c then (s, scanEnd) else (fst (scan_error s), scanEnd).

Definition do_stateEndValue (s : scanner) (c : ascii) : scanner * Op :=
  match parseState s with
  | [] =>
      do_stateEndTop
        {| step := stateEndTop; parseState := []; endTop := true; err := err s |} c
  | ps :: _ =>
      if isSpace c then (with_step stateEndValue s, scanSkipSpace)
      else match ps with
           | parseObjectKey =>
               if Ascii.eqb c ":" then
                 (with_step stateBeginValue (set_top parseObjectValue s), scanObjectKey)
               else scan_error s
           | parseObjectValue =>
               if Ascii.eqb c "," then
                 (with_step stateBeginString (set_top parseObjectKey s), scanObjectValue)
               else if Ascii.eqb c "}" then (popParseState s, scanEndObject)
               else scan_error s
           | parseArrayValue =>
               if Ascii.eqb c "," then (with_step stateBeginValue s, scanArrayValue)
               else if Ascii.eqb c "]" then (popParseState s, scanEndArray)
               else scan_error s
           end
  end.

Definition do_stateBeginValue (s : scanner) (c : ascii) : scanner * Op :=
  if isSpace c then (s, scanSkipSpace)
  else match c with
       | "{"%char => pushParseState (with_step stateBeginStringOrEmpty s)
                       parseObjectKey scanBeginObject
       | "["%char => pushParseState (with_step stateBeginValueOrEmpty s)
                       parseArrayValue scanBeginArray
       | "034"%char => (with_step stateInString s, scanBeginLiteral)
       | "-"%char => (with_step stateNeg s, scanBeginLiteral)
       | "0"%char => (with_step state0 s, scanBeginLiteral)
       | "t"%char => (with_step stateT s, scanBeginLiteral)
       | "f"%char => (with_step stateF s, scanBeginLiteral)
       | "n"%char => (with_step stateN s, scanBeginLiteral)
       | _ => if isDigit19 c then (with_step state1 s, scanBeginLiteral)
              else scan_error s
       end.

Definition do_stateBeginString (s : scanner) (c : ascii) : scanner * Op :=
  if isSpace c then (s, scanSkipSpace)
  else if Ascii.eqb c "034" then (with_step stateInString s, scanBeginLiteral)
  else scan_error s.

Definition do_state0 (s : scanner) (c : ascii) : scanner * Op :=
  if Ascii.eqb c "." then (with_step stateDot s, scanContinue)
  else if Ascii.eqb c "e" || Ascii.eqb c "E" then (with_step stateE s, scanContinue)
  else do_stateEndValue s c.

Definition do_stateESign (s : scanner) (c : ascii) : scanner * Op :=
  if isDigit c then (with_step stateE0 s, scanContinue) else scan_error s.

(** Expect exactly the byte [want], then move to [next]. *)
Definition expect (want : ascii) (next : Step) (s : scanner) (c : ascii)
    : scanner * Op :=
  if Ascii.eqb c want then (with_step next s, scanContinue) else scan_error s.

(** [s.step(s, c)]. *)
Definition scan_step (s : scanner) (c : ascii) : scanner * Op :=
  match step s with
  | stateBeginValueOrEmpty =>
      if isSpace c then (s, scanSkipSpace)
      else if Ascii.eqb c "]" then do_stateEndValue s c
      else do_stateBeginValue s c
  | stateBeginValue => do_stateBeginValue s c
  | stateBeginStringOrEmpty =>
      if isSpace c then (s, scanSkipSpace)
      else if Ascii.eqb c "}" then do_stateEndValue (set_top parseObjectValue s) c
      else do_stateBeginString s c
  | stateBeginString => do_stateBeginString s c
  | stateEndValue => do_stateEndValue s c
  | stateEndTop => do_stateEndTop s c
  | stateInString =>
      if Ascii.eqb c "034" then (with_step stateEndValue s, scanContinue)
      else if Ascii.eqb c "\" then (with_step stateInStringEsc s, scanContinue)
      else if (N_of_ascii c <? 32)%N then scan_error s
      else (s, scanContinue)
  | stateInStringEsc =>
      match c with
      | "b"%char | "f"%char | "n"%char | "r"%char | "t"%char
      | "\"%char | "/"%char | "034"%char => (with_step stateInString s, scanContinue)
      | "u"%char => (with_step stateInStringEscU s, scanContinue)
      | _ => scan_error s
      end
  | stateInStringEscU =>
      if isHex c then (with_step stateInStringEscU1 s, scanContinue) else scan_error s
  | stateInStringEscU1 =>
      if isHex c then (with_step stateInStringEscU12 s, scanContinue) else scan_error s
  | stateInStringEscU12 =>
      if isHex c then (with_step stateInStringEscU123 s, scanContinue) else scan_error s
  | stateInStringEscU123 =>
      if isHex c then (with_step stateInString s, scanContinue) else scan_error s
  | stateNeg =>
      if Ascii.eqb c "0" then (with_step state0 s, scanContinue)
      else if isDigit19 c then (with_step state1 s, scanContinue)
      else scan_error s
  | state1 =>
      if isDigit c then (with_step state1 s, scanContinue) else do_state0 s c
  | state0 => do_state0 s c
  | stateDot =>
      if isDigit c then (with_step stateDot0 s, scanContinue) else scan_error s
  | stateDot0 =>
      if isDigit c then (s, scanContinue)
      else if Ascii.eqb c "e" || Ascii.eqb c "E" then (with_step stateE s, scanContinue)
      else do_stateEndValue s c
  | stateE =>
      if Ascii.eqb c "+" || Ascii.eqb c "-" then (with_step stateESign s, scanContinue)
      else do_stateESign s c
  | stateESign => do_stateESign s c
  | stateE0 =>
      if isDigit c then (s, scanContinue) else do_stateEndValue s c
  | stateT => expect "r" stateTr s c
  | stateTr => expect "u" stateTru s c
  | stateTru => expect "e" stateEndValue s c
  | stateF => expect "a" stateFa s c
  | stateFa => expect "l" stateFal s c
  | stateFal => expect "s" stateFals s c
  | stateFals => expect "e" stateEndValue s c
  | stateN => expect "u" stateNu s c
  | stateNu => expect "l" stateNul s c
  | stateNul => expect "l" stateEndValue s c
  | stateError => (s, scanError)
  end.

(** [s.eof()]: [true] stands for [scanEnd], [false] for [scanError]. *)
Definition eof (s : scanner) : bool :=
  if err s then false
  else if endTop s then true
  else endTop (fst (scan_step s " ")).

(** The loop of [checkValid]: [true] when it returns a nil error. *)
Fixpoint checkValid_from (s : scanner) (data : list ascii) : bool :=
  match data with
  | [] => eof s
  | c :: rest =>
      let '(s', op) := scan_step s c in
      match op with
      | scanError => false
      | _ => checkValid_from s' rest
      end
  end.

Definition checkValid (data : list ascii) : bool := checkValid_from reset data.

(** *** Decoding into [map[string]interface{}] *)

(** [strconv.ParseFloat(lit, 64)] fails with a range error exactly when
    the number it has read rounds to an infinity, that is when its
    magnitude reaches [2^1024 - 2^970].  The number read is the digits of
    the literal with the decimal point moved by the exponent as
    [exponent_value] gives it.  [lit] is a number literal the scanner has
    accepted. *)
Fixpoint span_digits (l : list ascii) : list ascii * list ascii :=
  match l with
  | c :: rest =>
      if isDigit c then let '(d, r) := span_digits rest in (c :: d, r)
      else ([], l)
  | [] => ([], [])
  end.

Definition digits_value (l : list ascii) : Z :=
  fold_left (fun acc c => (acc * 10 + (Z.of_N (N_of_ascii c) - 48))%Z) l 0%Z.

(** The exponent as [strconv]'s [readFloat] and [decimal.set] accumulate
    it: a further digit is taken in only while the value read so far is
    below 10000, so the decimal point moves by less than 100000 places
    however long the exponent is written. *)
Definition exponent_value (l : list ascii) : Z :=
  fold_left (fun e c => if (e <? 10000)%Z
                        then (e * 10 + (Z.of_N (N_of_ascii c) - 48))%Z
                        else e) l 0%Z.

Definition float64_limit : Z := (2 ^ 1024 - 2 ^ 970)%Z.

Definition float64_range_error (lit : list ascii) : bool :=
  let unsigned := match lit with "-"%char :: r => r | _ => lit end in
  let '(int_part, r1) := span_digits unsigned in
  let '(frac_part, r2) :=
    match r1 with
    | "."%char :: r => span_digits r
    | _ => ([], r1)
    end in
  let exponent :=
    match r2 with
    | c :: r =>
        if Ascii.eqb c "e" || Ascii.eqb c "E" then
          match r with
          | "-"%char :: ds => (- exponent_value (fst (span_digits ds)))%Z
          | "+"%char :: ds => exponent_value (fst (span_digits ds))
          | ds => exponent_value (fst (span_digits ds))
          end
        else 0%Z
    | [] => 0%Z
    end in
  let mant := digits_value (int_part ++ frac_part)%list in
  let e10 := (exponent - Z.of_nat (List.length frac_part))%Z in
  if (0 <=? e10)%Z then (float64_limit <=? mant * 10 ^ e10)%Z
  else (float64_limit * 10 ^ (- e10) <=? mant)%Z.

Definition in_number (st : Step) : bool :=
  match st with
  | stateNeg | state1 | state0 | stateDot | stateDot0
  | stateE | stateESign | stateE0 => true
  | _ => false
  end.

(** Walk a valid document with the scanner, cut out every number
    literal (as [d.literalInterface] does through [d.convertNumber]) and
    report whether one of them is out of range.  [lit] holds the bytes
    of the literal being read. *)
Fixpoint number_out_of_range (s : scanner) (lit : list ascii)
    (data : list ascii) : bool :=
  match data with
  | [] => in_number (step s) && float64_range_error lit
  | c :: rest =>
      let s' := fst (scan_step s c) in
      if in_number (step s') then number_out_of_range s' (lit ++ [c])%list rest
      else (in_number (step s) && float64_range_error lit)
           || number_out_of_range s' [] rest
  end.

(** The kind of the top-level value: its first byte after the leading
    white space ([d.value] dispatching on the scanner's first opcode
    and [d.literalStore] on [item[0]]). *)
Inductive Kind := KObject | KArray | KString | KNumber | KBool | KNull.

Fixpoint top_kind (data : list ascii) : Kind :=
  match data with
  | [] => KNull
  | c :: rest =>
      if isSpace c then top_kind rest
      else match c with
           | "{"%char => KObject
           | "["%char => KArray
           | "034"%char => KString
           | "t"%char | "f"%char => KBool
           | "n"%char => KNull
           | _ => KNumber
           end
  end.

(** What [json.Unmarshal(data, &m)] leaves in [m : map[string]interface{}]
    when it returns a nil error: the nil map (from [null]) or the map
    decoded from the object [data]. *)
Inductive DecodedMap := NilMap | MapOf (data : list ascii).

Inductive UnmarshalError := SyntaxError | UnmarshalTypeError.

Definition Unmarshal_map (data : list ascii) : DecodedMap + UnmarshalError :=
  if negb (checkValid data) then inr SyntaxError
  else match top_kind data with
       | KObject =>
           if number_out_of_range reset [] data then inr UnmarshalTypeError
           else inl (MapOf data)
       | KNull => inl NilMap
       | KArray | KString | KNumber | KBool => inr UnmarshalTypeError
       end.

End Json.

(** ** Library calls kept abstract

    Three library results do not matter for what is proved below and
    differ between Go releases or need float64 printing; they are taken
    from the runtime the program runs on.  The [bool] of a pair is
    [err != nil]. *)

Record GoRuntime := {
  (** [url.ParseQuery]; the map it returns is never nil. *)
  url_ParseQuery : string -> Values * bool;
  (** [mime.ParseMediaType], media type only. *)
  mime_ParseMediaType : string -> string * bool;
  (** The bytes [json.Marshal] emits for the map decoded from an object. *)
  json_Marshal_object : list ascii -> list ascii;
  (** [errorMsgs.String] on the texts of the selected gin errors. *)
  gin_errors_String : list string -> string;
}.

(** [json.Marshal(m)] for a map that [json.Unmarshal] has filled: every
    value in it is nil, a bool, a finite float64, a string, a slice or a
    map of these, so no error arises; the nil map is rendered [null]. *)
Definition json_Marshal (rt : GoRuntime) (m : Json.DecodedMap) : list ascii * bool :=
  match m with
  | Json.NilMap => (list_ascii_of_string "null", false)
  | Json.MapOf data => (json_Marshal_object rt data, false)
  end.

(** ** [Request.ParseForm] *)

Definition is_POST_PUT_PATCH (method : string) : bool :=
  String.eqb method "POST" || String.eqb method "PUT" || String.eqb method "PATCH".

(** [10 << 20] *)
Definition defaultMaxFormSize : Z := Z.shiftl 10 20.

(** [parsePostForm]: the values ([None] is nil), [err != nil], and the
    body stream as the call leaves it. *)
Definition parsePostForm (rt : GoRuntime) (r : Request)
    : option Values * bool * Reader :=
  let ct := Header_Get (Headers r) "Content-Type" in
  let ct := if String.eqb ct "" then "application/octet-stream" else ct in
  let '(ct, err) := mime_ParseMediaType rt ct in
  if String.eqb ct "application/x-www-form-urlencoded" then
    let '(b, e, body') :=
      if is_maxBytesReader (Body r) then ReadAll (Body r)
      else ReadAll_limited (defaultMaxFormSize + 1) (Body r) in
    if e then (None, true, body')
    else if negb (is_maxBytesReader (Body r))
            && (defaultMaxFormSize <? Z.of_nat (List.length b))%Z
    then (None, true, body')
    else
      let '(vs, e) := url_ParseQuery rt (string_of_list_ascii b) in
      (Some vs, err || e, body')
  else (None, err, Body r).

(** [ParseForm]: the request afterwards and [err != nil]. *)
Definition ParseForm (rt : GoRuntime) (r : Request) : Request * bool :=
  let '(postForm, err, body') :=
    match PostForm r with
    | None =>
        let '(pf, err, body') :=
          if is_POST_PUT_PATCH (Method r) then parsePostForm rt r
          else (None, false, Body r) in
        (Some (default ∅ pf), err, body')
    | Some pf => (Some pf, false, Body r)
    end in
  let pf := default ∅ postForm in
  let '(form, err) :=
    match Form r with
    | None =>
        let '(newValues, e) := url_ParseQuery rt (URL_RawQuery r) in
        let form :=
          if (0 <? size pf)%nat then copyValues (copyValues ∅ pf) newValues
          else newValues in
        (Some form, err || e)
    | Some f => (Some f, err)
    end in
  (set_Forms form postForm (set_Body body' r), err).

(** [URL.Query]: [ParseQuery] with the error dropped. *)
Definition URL_Query (rt : GoRuntime) (r : Request) : Values :=
  fst (url_ParseQuery rt (URL_RawQuery r)).

(** ** [HttpLogger], request side *)

(** The dynamic value held by [reqParams interface{}]. *)
Inductive Params :=
| PNil
| PString (s : string)
| PValues (v : option Values).

(** The [switch c.ContentType()] statement: the value left in [reqParams]
    and the request as the handlers will find it. *)
Definition capture_request (rt : GoRuntime) (r : Request) : Params * Request :=
  match request_arm (ContentType r) with
  | ReqJSON =>
      let '(bodyBytes, _, _) := ReadAll (Body r) in
      let reqParams :=
        if (0 <? List.length bodyBytes)%nat then
          match Json.Unmarshal_map bodyBytes with
          | inl m =>
              let '(marshal, err) := json_Marshal rt m in
              if err then PNil else PString (string_of_list_ascii marshal)
          | inr _ => PNil
          end
        else PNil in
      (reqParams, set_Body (NewBuffer bodyBytes) r)
  | ReqForm =>
      let r' := fst (ParseForm rt r) in
      (PValues (Form r'), r')
  | ReqOctet => (PString "[BINARY DATA]", r)
  | ReqDefault =>
      if String.eqb (Method r) "GET" && (0 <? size (URL_Query rt r))%nat
      then (PValues (Some (URL_Query rt r)), r)
      else (PString (unsupported_placeholder (ContentType r)), r)
  end.

(** ** The recording response writer *)

(** gin's own writer: status, headers and the bytes sent to the client. *)
Record RawWriter := {
  w_status : Z;
  w_header : Header;
  w_written : list ascii;
}.

(** Modelled from the spec: [NewResponseRecorder] and the recorder type are
    declared in a file of the package that is not part of the sources at
    hand.  The recorder wraps the real response writer, owns a buffer that
    accumulates the written bytes in parallel with forwarding them, and
    owns the last-written status code; it exposes the headers of the
    writer it wraps. *)
Record ResponseRecorder := {
  inner : RawWriter;
  rec_Body : list ascii;
  rec_status : Z;
}.

Definition NewResponseRecorder (w : RawWriter) : ResponseRecorder :=
  {| inner := w; rec_Body := []; rec_status := w_status w |}.

Definition recorder_Write (b : list ascii) (r : ResponseRecorder) : ResponseRecorder :=
  {| inner := {| w_status := w_status (inner r); w_header := w_header (inner r);
                 w_written := (w_written (inner r) ++ b)%list |};
     rec_Body := (rec_Body r ++ b)%list;
     rec_status := rec_status r |}.

Definition recorder_WriteHeader (code : Z) (r : ResponseRecorder) : ResponseRecorder :=
  {| inner := {| w_status := code; w_header := w_header (inner r);
                 w_written := w_written (inner r) |};
     rec_Body := rec_Body r;
     rec_status := code |}.

Definition recorder_Status (r : ResponseRecorder) : Z := rec_status r.
Definition recorder_Header (r : ResponseRecorder) : Header := w_header (inner r).

(** ** gin context and handler chain *)

(** [gin.ErrorType] is a bit mask. *)
Definition ErrorTypePrivate : Z := Z.shiftl 1 0.
Definition ErrorTypeAny : Z := Z.shiftl 1 64 - 1.

Record GinError := { err_Type : Z; err_text : string }.

(** [errorMsgs.ByType]. *)
Definition ByType (typ : Z) (a : list GinError) : list GinError :=
  if Z.eqb typ ErrorTypeAny then a
  else List.filter (fun e => (0 <? Z.land (err_Type e) typ)%Z) a.

(** What the rest of the chain can reach through [*gin.Context]: the
    request, the writer installed in [c.Writer], the error list, and the
    wall clock (nanoseconds). *)
Record Chain := {
  ch_request : Request;
  ch_recorder : ResponseRecorder;
  ch_errors : list GinError;
  ch_now : Z;
}.

(** The context as [HttpLogger]'s closure receives it.  [HandlerName]
    stands for [runtime.FuncForPC(...).Name()] and [ClientIP] for
    [c.ClientIP()]. *)
Record Context := {
  c_Request : Request;
  c_Writer : RawWriter;
  c_Errors : list GinError;
  c_HandlerName : string;
  c_ClientIP : string;
  c_now : Z;
}.

(** ** zap: the global sugared logger *)

Inductive Level := DebugLevel | InfoLevel | WarnLevel | ErrorLevel.

(** The arguments of the two [fmt.Sprintf] calls, in order. *)
Record RequestLog := {
  rl_requestId : string;
  rl_handlerName : string;
  rl_httpPath : string;
  rl_method : string;
  rl_reqParams : Params;
  rl_clientIP : string;
}.

Record ResponseLog := {
  pl_requestId : string;
  pl_statusCode : Z;
  pl_errorMessage : string;
  pl_responseData : string;
  pl_size : Z;
  pl_cost : Z;
}.

Inductive LogMessage :=
| HttpTrace (requestLog : RequestLog) (responseLog : ResponseLog)
| DirFailure (err : string)
| Text (line : string).

(** What [getLogWriter] hands to lumberjack. *)
Record Rotation := {
  Filename : string;
  MaxSize : Z;
  MaxBackups : Z;
  MaxAge : Z;
  Compress : bool;
}.

(** The logger [InitLogger] builds: a tee of a file core and a console
    core, both at [DebugLevel], with caller annotation. *)
Record SugaredLogger := {
  file_sink : Rotation;
  min_level : Level;
  add_caller : bool;
}.

(** Package state: the variable [SugarLogger] ([None] is the nil pointer)
    and the lines handed to the sinks so far. *)
Record Globals := {
  SugarLogger : option SugaredLogger;
  emitted : list (Level * LogMessage);
}.

Inductive PanicReason :=
| NilPointerDereference
| PanicValue (v : string).

(** How a call ends: it returns, it panics (nothing in this package
    recovers), or it never returns. *)
Inductive outcome (A : Type) :=
| Returned (a : A)
| Panicked (why : PanicReason)
| NeverReturns.
Arguments Returned {A} a.
Arguments Panicked {A} why.
Arguments NeverReturns {A}.

(** [c.Next()]: the remaining handlers of the chain.  They work on the
    request, the writer and the error list, and, like any code of the
    process, they can log through the exported [SugarLogger] or assign
    it; they may panic or never return. *)
Definition Handler := Chain -> Globals -> outcome (Chain * Globals).

(** A chain that returns and leaves the package state alone. *)
Definition returning (f : Chain -> Chain) : Handler :=
  fun ch g => Returned (f ch, g).

Definition level_rank (l : Level) : Z :=
  match l with DebugLevel => -1 | InfoLevel => 0 | WarnLevel => 1 | ErrorLevel => 2 end.

(** [SugaredLogger.log], reached through [Infof] and [Errorf]: the pointer
    receiver is dereferenced ([s.base]) before anything else happens. *)
Definition sugar_log (lvl : Level) (msg : LogMessage) (g : Globals) : outcome Globals :=
  match SugarLogger g with
  | None => Panicked NilPointerDereference
  | Some s =>
      if (level_rank (min_level s) <=? level_rank lvl)%Z
      then Returned {| SugarLogger := SugarLogger g;
                       emitted := (emitted g ++ [(lvl, msg)])%list |}
      else Returned g
  end.

Definition Infof := sugar_log InfoLevel.
Definition Errorf := sugar_log ErrorLevel.

(** ** [HttpLogger], response side and the whole closure *)

(** The [switch respCT] statement. *)
Definition response_data (respCT : string) (body : list ascii) : string :=
  match response_arm respCT with
  | RespJSON => string_of_list_ascii body
  | RespForm => string_of_list_ascii body
  | RespBinary => "[BINARY DATA]"
  | RespDefault => unsupported_placeholder respCT
  end.

(** The closure returned by [HttpLogger] up to [c.Next()]: the request
    block of the log entry and what the rest of the chain is started on
    (the request as the capture left it, the recorder in [c.Writer]). *)
Definition before_Next (rt : GoRuntime) (c : Context) : RequestLog * Chain :=
  let start := c_now c in
  let requestId := Header_Get (Headers (c_Request c)) "X-Request-Id" in
  let httpPath := URL_Path (c_Request c) in
  let method := Method (c_Request c) in
  let clientIP := c_ClientIP c in
  let handlerName := c_HandlerName c in
  let '(reqParams, request) := capture_request rt (c_Request c) in
  let requestLog :=
    {| rl_requestId := requestId; rl_handlerName := handlerName;
       rl_httpPath := httpPath; rl_method := method;
       rl_reqParams := reqParams; rl_clientIP := clientIP |} in
  let recorder := NewResponseRecorder (c_Writer c) in
  (requestLog,
   {| ch_request := request; ch_recorder := recorder;
      ch_errors := c_Errors c; ch_now := start |}).

(** The closure after [c.Next()] has returned, up to the second
    [fmt.Sprintf]: the response block of the log entry. *)
Definition after_Next (rt : GoRuntime) (requestId : string) (start : Z)
    (after : Chain) : ResponseLog :=
  let recorder := ch_recorder after in
  let statusCode := recorder_Status recorder in
  let errorMessage :=
    gin_errors_String rt (List.map err_text (ByType ErrorTypePrivate (ch_errors after))) in
  let respCT := SplitN2_head (Header_Get (recorder_Header recorder) "Content-Type") in
  let responseData := response_data respCT (rec_Body recorder) in
  let cost := (ch_now after - start)%Z in
  {| pl_requestId := requestId; pl_statusCode := statusCode;
     pl_errorMessage := errorMessage; pl_responseData := responseData;
     pl_size := Z.of_nat (List.length (rec_Body recorder)); pl_cost := cost |}.

(** The closure up to the second [fmt.Sprintf]: when [c.Next()] returns,
    the two blocks that will be handed to [SugarLogger.Infof], the chain
    state and the package state the handlers left behind. *)
Definition trace (rt : GoRuntime) (next : Handler) (c : Context) (g : Globals)
    : outcome (RequestLog * ResponseLog * Chain * Globals) :=
  let '(requestLog, chain) := before_Next rt c in
  match next chain g with
  | Returned (after, g1) =>
      Returned (requestLog,
                after_Next rt (rl_requestId requestLog) (c_now c) after,
                after, g1)
  | Panicked why => Panicked why
  | NeverReturns => NeverReturns
  end.

(** The closure returned by [HttpLogger], run on one context with the
    rest of the chain given as [next]. *)
Definition HttpLogger (rt : GoRuntime) (next : Handler) (c : Context) (g : Globals)
    : outcome (Chain * Globals) :=
  match trace rt next c g with
  | Returned (requestLog, responseLog, after, g1) =>
      match Infof (HttpTrace requestLog responseLog) g1 with
      | Returned g' => Returned (after, g')
      | Panicked why => Panicked why
      | NeverReturns => NeverReturns
      end
  | Panicked why => Panicked why
  | NeverReturns => NeverReturns
  end.

(** ** [path.Dir] *)

Module Path.

(** [path.Split], directory half: everything up to the last slash. *)
Fixpoint Split_dir (p : string) : string :=
  match p with
  | EmptyString => EmptyString
  | String c rest =>
      if contains_byte "/" rest then String c (Split_dir rest)
      else if Ascii.eqb c "/" then "/" else EmptyString
  end.

Fixpoint components (cur p : string) : list string :=
  match p with
  | EmptyString => [cur]
  | String c rest =>
      if Ascii.eqb c "/" then cur :: components EmptyString rest
      else components (cur ++ String c EmptyString) rest
  end.

(** One element of the path against the elements kept so far (last
    kept first): empty and [.] are dropped, [..] removes the last kept
    element unless there is none to remove. *)
Definition clean_step (rooted : bool) (kept : list string) (elem : string)
    : list string :=
  if String.eqb elem "" || String.eqb elem "." then kept
  else if String.eqb elem ".." then
    match kept with
    | top :: below => if String.eqb top ".." then elem :: kept else below
    | [] => if rooted then [] else [elem]
    end
  else elem :: kept.

Fixpoint join_slash (l : list string) : string :=
  match l with
  | [] => ""
  | [x] => x
  | x :: rest => x ++ "/" ++ join_slash rest
  end.

Definition Clean (p : string) : string :=
  if String.eqb p "" then "."
  else
    let rooted := String.prefix "/" p in
    let kept := fold_left (clean_step rooted) (components "" p) [] in
    let out := join_slash (rev kept) in
    if rooted then "/" ++ out
    else if String.eqb out "" then "." else out.

Definition Dir (p : string) : string := Clean (Split_dir p).

End Path.

(** ** [ensureDir] and [InitLogger] *)

(** The two file-system answers [ensureDir] asks for: whether [os.Stat]
    fails with a does-not-exist error, and the error of [os.MkdirAll], if
    any. *)
Record FileSystem := {
  stat_IsNotExist : string -> bool;
  MkdirAll_error : string -> option string;
}.

Definition ensureDir (fs : FileSystem) (filePath : string) : option string :=
  let dir := Path.Dir filePath in
  if stat_IsNotExist fs dir then MkdirAll_error fs dir else None.

Definition getLogWriter (filename : string) (maxSize maxBackups maxAge : Z)
    (compress : bool) : Rotation :=
  {| Filename := filename; MaxSize := maxSize; MaxBackups := maxBackups;
     MaxAge := maxAge; Compress := compress |}.

Definition InitLogger (fs : FileSystem) (filename : string)
    (maxSize maxBackups maxAge : Z) (compress : bool) (g : Globals)
    : outcome Globals :=
  let reported :=
    match ensureDir fs filename with
    | Some err => Errorf (DirFailure err) g
    | None => Returned g
    end in
  match reported with
  | Panicked why => Panicked why
  | NeverReturns => NeverReturns
  | Returned g =>
      let writeSyncer := getLogWriter filename maxSize maxBackups maxAge compress in
      let logger := {| file_sink := writeSyncer; min_level := DebugLevel;
                       add_caller := true |} in
      Returned {| SugarLogger := Some logger; emitted := emitted g |}
  end.

(** ** A concrete runtime for evaluating the model

    [url.ParseQuery] as in the current Go release; the other three
    entries agree with the libraries on the inputs used in the examples
    below (a lower-case media type without parameters, an object already
    in the form [json.Marshal] prints, an empty error list). *)

Module SampleRuntime.

Definition hex_value (c : ascii) : N :=
  let n := N_of_ascii c in
  if (n <=? 57)%N then (n - 48)%N
  else if (97 <=? n)%N then (n - 87)%N else (n - 55)%N.

(** [url.QueryUnescape]; [None] is an [EscapeError]. *)
Fixpoint QueryUnescape (s : string) : option string :=
  match s with
  | EmptyString => Some EmptyString
  | String "%" (String a (String b rest)) =>
      if Json.isHex a && Json.isHex b then
        String (ascii_of_N (16 * hex_value a + hex_value b)) <$> QueryUnescape rest
      else None
  | String "%" _ => None
  | String "+" rest => String " " <$> QueryUnescape rest
  | String c rest => String c <$> QueryUnescape rest
  end.

Fixpoint after_first (sep : ascii) (s : string) : string :=
  match s with
  | EmptyString => EmptyString
  | String c rest => if Ascii.eqb c sep then rest else after_first sep rest
  end.

Fixpoint pieces (sep : ascii) (cur s : string) : list string :=
  match s with
  | EmptyString => [cur]
  | String c rest =>
      if Ascii.eqb c sep then cur :: pieces sep EmptyString rest
      else pieces sep (cur ++ String c EmptyString) rest
  end.

Definition parse_pair (acc : Values * bool) (key : string) : Values * bool :=
  let '(m, err) := acc in
  if contains_byte ";" key then (m, true)
  else if String.eqb key "" then (m, err)
  else match QueryUnescape (before_first "=" key),
             QueryUnescape (after_first "=" key) with
       | Some k, Some v => (<[k := (default [] (m !! k) ++ [v])%list]> m, err)
       | _, _ => (m, true)
       end.

Definition ParseQuery (query : string) : Values * bool :=
  fold_left parse_pair (pieces "&" "" query) (∅, false).

Definition runtime : GoRuntime :=
  {| url_ParseQuery := ParseQuery;
     mime_ParseMediaType := fun v => (v, false);
     json_Marshal_object := fun data => data;
     gin_errors_String := fun _ => "" |}.

End SampleRuntime.

(** ** Sample inputs *)

Definition no_body : Reader := NewBuffer [].

Definition request_with (method ct query body : string) : Request :=
  {| Method := method; URL_Path := "/items"; URL_RawQuery := query;
     Headers := if String.eqb ct "" then ∅ else {[ "Content-Type" := [ct] ]};
     Body := NewBuffer (list_ascii_of_string body);
     Form := None; PostForm := None |}.

Definition context_of (r : Request) : Context :=
  {| c_Request := r;
     c_Writer := {| w_status := 200; w_header := ∅; w_written := [] |};
     c_Errors := []; c_HandlerName := "main.listItems";
     c_ClientIP := "192.0.2.7"; c_now := 0 |}.

(** A handler that reads the whole request body and echoes it as [text/css]. *)
Definition echo_chain : Chain -> Chain := fun ch =>
  let '(b, _, body') := ReadAll (Body (ch_request ch)) in
  let rec' := recorder_Write b (ch_recorder ch) in
  {| ch_request := set_Body body' (ch_request ch);
     ch_recorder :=
       {| inner := {| w_status := w_status (inner rec');
                      w_header := <[ "Content-Type" := ["text/css; charset=utf-8"] ]>
                                    (w_header (inner rec'));
                      w_written := w_written (inner rec') |};
          rec_Body := rec_Body rec'; rec_status := rec_status rec' |};
     ch_errors := ch_errors ch;
     ch_now := (ch_now ch + 1500)%Z |}.

Definition echo_handler : Handler := returning echo_chain.

(** Handlers that do what [returning] cannot: panic, write a line of
    their own through the package logger, set the package variable back
    to nil. *)
Definition panicking_handler : Handler :=
  fun _ _ => Panicked (PanicValue "runtime error: index out of range").

Definition logging_handler : Handler := fun ch g =>
  match Infof (Text "handling") g with
  | Returned g1 => Returned (ch, g1)
  | Panicked why => Panicked why
  | NeverReturns => NeverReturns
  end.

Definition unsetting_handler : Handler :=
  fun ch g => Returned (ch, {| SugarLogger := None; emitted := emitted g |}).


Definition json_post (body : string) : Context :=
  context_of (request_with "POST" "application/json" "" body).

Definition form_post : Context :=
  context_of (request_with "POST" "application/x-www-form-urlencoded" "" "a=1&b=2").

Definition octet_post : Context :=
  context_of (request_with "POST" "application/octet-stream" "" "secret").

Definition get_with_query : Context :=
  context_of (request_with "GET" "" "a=1" "").

Definition never_initialised : Globals := {| SugarLogger := None; emitted := [] |}.

(** A file system on which no directory exists and none can be made. *)
Definition read_only_fs : FileSystem :=
  {| stat_IsNotExist := fun _ => true;
     MkdirAll_error := fun dir => Some ("mkdir " ++ dir ++ ": read-only file system") |}.


(** ** Sequences of calls into the package

    What a process does with the package over its lifetime: calls of
    [InitLogger] and runs of the closure [HttpLogger] returns, one after
    the other on the same package variable. *)






(** A file system on which every directory exists. *)
Definition plain_fs : FileSystem :=
  {| stat_IsNotExist := fun _ => false; MkdirAll_error := fun _ => None |}.

Definition delete_with_query : Context :=
  context_of (request_with "DELETE" "" "id=3" "").

Definition form_get : Context :=
  context_of (request_with "GET" "application/x-www-form-urlencoded" "a=1" "ignored").

(** A handler that answers 201 with the body [{}] under the given
    Content-Type header; gin's [c.JSON] sends
    [application/json; charset=utf-8]. *)
Definition answer_json_chain (contentType : string) : Chain -> Chain := fun ch =>
  let rec' := recorder_Write (list_ascii_of_string "{}")
                (recorder_WriteHeader 201 (ch_recorder ch)) in
  {| ch_request := ch_request ch;
     ch_recorder :=
       {| inner := {| w_status := w_status (inner rec');
                      w_header := <[ "Content-Type" := [contentType] ]>
                                    (w_header (inner rec'));
                      w_written := w_written (inner rec') |};
          rec_Body := rec_Body rec'; rec_status := rec_status rec' |};
     ch_errors := ch_errors ch;
     ch_now := (ch_now ch + 20)%Z |}.

Definition answer_json (contentType : string) : Handler :=
  returning (answer_json_chain contentType).

Definition json_handler : Handler := answer_json "application/json; charset=utf-8".

Definition debug_logger : SugaredLogger :=
  {| file_sink := getLogWriter "logs/app.log" 10 5 30 true;
     min_level := DebugLevel; add_caller := true |}.

Definition initialised : Globals :=
  {| SugarLogger := Some debug_logger; emitted := [] |}.

(** * Properties *)

Lemma eqb_false_of_ne (a b : string) : a ≠ b -> String.eqb a b = false.
Proof. intros H. now apply String.eqb_neq. Qed.

Section Interceptor.

Variable rt : GoRuntime.

Lemma capture_json (r : Request) :
  ContentType r = "application/json" ->
  capture_request rt r =
    ((if (0 <? List.length (pending (Body r)))%nat then
        match Json.Unmarshal_map (pending (Body r)) with
        | inl m => PString (string_of_list_ascii (fst (json_Marshal rt m)))
        | inr _ => PNil
        end
      else PNil),
     set_Body (NewBuffer (pending (Body r))) r).
Proof.
  intros Hct. unfold capture_request. rewrite Hct. cbn [request_arm].
  change (String.eqb "application/json" "application/json") with true.
  cbn iota. unfold ReadAll. f_equal.
  destruct (0 <? _)%nat; [| reflexivity].
  destruct (Json.Unmarshal_map _) as [m | e]; [| reflexivity].
  destruct m; reflexivity.
Qed.

Lemma before_Next_request (c : Context) :
  ch_request (snd (before_Next rt c)) = snd (capture_request rt (c_Request c)).
Proof. unfold before_Next. destruct (capture_request rt _); reflexivity. Qed.

Lemma before_Next_params (c : Context) :
  rl_reqParams (fst (before_Next rt c)) = fst (capture_request rt (c_Request c)).
Proof. unfold before_Next. destruct (capture_request rt _); reflexivity. Qed.

Lemma before_Next_request_id (c : Context) :
  rl_requestId (fst (before_Next rt c))
  = Header_Get (Headers (c_Request c)) "X-Request-Id".
Proof. unfold before_Next. destruct (capture_request rt _); reflexivity. Qed.

(** When the closure gets as far as the second [Sprintf], the handlers
    have returned, the request block is the one built before [c.Next()]
    and the response block is built from the state they left. *)
Lemma trace_returned (next : Handler) (c : Context) (g g1 : Globals)
    (requestLog : RequestLog) (responseLog : ResponseLog) (after : Chain) :
  trace rt next c g = Returned (requestLog, responseLog, after, g1) ->
  next (snd (before_Next rt c)) g = Returned (after, g1)
  /\ requestLog = fst (before_Next rt c)
  /\ responseLog
     = after_Next rt (Header_Get (Headers (c_Request c)) "X-Request-Id")
         (c_now c) after.
Proof.
  unfold trace. rewrite <- before_Next_request_id.
  destruct (before_Next rt c) as [rl chain]. cbn [fst snd].
  destruct (next chain g) as [[after' g1'] | why |]; try discriminate.
  intros [= <- <- <- <-]. auto.
Qed.

Lemma trace_of_returned_chain (next : Handler) (c : Context) (g g1 : Globals)
    (after : Chain) :
  next (snd (before_Next rt c)) g = Returned (after, g1) ->
  trace rt next c g
  = Returned (fst (before_Next rt c),
              after_Next rt (Header_Get (Headers (c_Request c)) "X-Request-Id")
                (c_now c) after,
              after, g1).
Proof.
  unfold trace. rewrite <- before_Next_request_id.
  destruct (before_Next rt c) as [rl chain]. cbn [fst snd].
  intros ->. reflexivity.
Qed.

(** C1: for a request whose content type is application/json and whose
    body holds the bytes [B], the chain that runs after the capture
    finds a body stream that delivers exactly [B] and then a clean EOF;
    this holds whether or not the bytes could be normalized. *)
Theorem C1_json_body_restored (c : Context) (B : list ascii) :
  ContentType (c_Request c) = "application/json" ->
  pending (Body (c_Request c)) = B ->
  fst (ReadAll (Body (ch_request (snd (before_Next rt c))))) = (B, false).
Proof.
  intros Hct HB. rewrite before_Next_request, (capture_json _ Hct), HB.
  reflexivity.
Qed.

(** C5: for a request whose content type is application/octet-stream the
    captured parameter value is the marker [[BINARY DATA]], whatever the
    body holds, and the body stream is left as it was. *)
Theorem C5_octet_stream_placeholder (c : Context) :
  ContentType (c_Request c) = "application/octet-stream" ->
  rl_reqParams (fst (before_Next rt c)) = PString "[BINARY DATA]"
  /\ ch_request (snd (before_Next rt c)) = c_Request c.
Proof.
  intros Hct. rewrite before_Next_params, before_Next_request.
  unfold capture_request. rewrite Hct. split; reflexivity.
Qed.



(** C10: the closure dereferences the package variable [SugarLogger] in
    its last statement.  Whatever the request and the handlers, when the
    handlers have returned and the variable is nil at that point (as it
    is when nothing has assigned it), the run ends in a nil-pointer
    panic; and the run returns exactly when the handlers return with the
    variable assigned. *)
Theorem C10_logger_must_be_initialised (next : Handler) (c : Context) (g : Globals) :
  (forall after g1,
     next (snd (before_Next rt c)) g = Returned (after, g1) ->
     SugarLogger g1 = None ->
     HttpLogger rt next c g = Panicked NilPointerDereference)
  /\ ((exists res, HttpLogger rt next c g = Returned res)
      <-> (exists after g1,
             next (snd (before_Next rt c)) g = Returned (after, g1)
             /\ is_Some (SugarLogger g1))).
Proof.
  split.
  - intros after g1 Hnext Hnil. unfold HttpLogger.
    rewrite (trace_of_returned_chain _ _ _ _ _ Hnext).
    unfold Infof, sugar_log. rewrite Hnil. reflexivity.
  - unfold HttpLogger. split.
    + intros [res Hres].
      destruct (trace rt next c g) as [[[[rl pl] after] g1] | why |] eqn:Htrace;
        try discriminate.
      destruct (trace_returned _ _ _ _ _ _ _ Htrace) as (Hnext & _ & _).
      exists after, g1. split; [exact Hnext |].
      unfold Infof, sugar_log in Hres.
      destruct (SugarLogger g1); [eauto | discriminate].
    + intros (after & g1 & Hnext & [l Hl]).
      rewrite (trace_of_returned_chain _ _ _ _ _ Hnext).
      unfold Infof, sugar_log. rewrite Hl.
      destruct (_ <=? _)%Z; eauto.
Qed.

(** A chain that returns and leaves the package state alone always gets
    the closure to its last statement. *)
Lemma trace_returning (f : Chain -> Chain) (c : Context) (g : Globals) :
  trace rt (returning f) c g
  = Returned (fst (before_Next rt c),
              after_Next rt (Header_Get (Headers (c_Request c)) "X-Request-Id")
                (c_now c) (f (snd (before_Next rt c))),
              f (snd (before_Next rt c)), g).
Proof. apply trace_of_returned_chain. reflexivity. Qed.

(** For such a chain the fate of the run is decided by the package
    variable as the run finds it. *)
Lemma HttpLogger_with_returning_handler (f : Chain -> Chain) (c : Context)
    (g : Globals) :
  (SugarLogger g = None ->
   HttpLogger rt (returning f) c g = Panicked NilPointerDereference)
  /\ ((exists res, HttpLogger rt (returning f) c g = Returned res)
      <-> is_Some (SugarLogger g)).
Proof.
  unfold HttpLogger. rewrite trace_returning. unfold Infof, sugar_log.
  destruct (SugarLogger g) as [l |].
  - split; [discriminate |]. split; [eauto |]. intros _.
    destruct (_ <=? _)%Z; eauto.
  - split; [reflexivity |]. split.
    + intros [res Hres]. discriminate.
    + intros [l Hl]. discriminate.
Qed.

End Interceptor.

Section RequestCapture.

Variable rt : GoRuntime.

Lemma filterFlags_nonempty (s : string) :
  filterFlags s <> "" -> s <> "".
Proof. intros H ->. apply H. reflexivity. Qed.

Lemma ReadAll_limited_small (n : Z) (r : Reader) :
  (Z.of_nat (List.length (pending r)) < n)%Z ->
  ReadAll_limited n r = ReadAll r.
Proof.
  intros Hlt. unfold ReadAll_limited.
  destruct (Z.ltb_spec (Z.of_nat (List.length (pending r))) n); [reflexivity | lia].
Qed.

(** [parsePostForm] on a form-encoded body of ordinary size: the body
    stream is read to its end and handed back empty. *)
Lemma parsePostForm_drains (r : Request) :
  Header_Get (Headers r) "Content-Type" <> "" ->
  fst (mime_ParseMediaType rt (Header_Get (Headers r) "Content-Type"))
    = "application/x-www-form-urlencoded" ->
  (Z.of_nat (List.length (pending (Body r))) <= defaultMaxFormSize)%Z ->
  snd (parsePostForm rt r) = drained (Body r).
Proof.
  intros Hne Hmime Hlen. unfold parsePostForm.
  rewrite (eqb_false_of_ne _ _ Hne).
  destruct (mime_ParseMediaType rt _) as [ct err]. cbn in Hmime. subst ct.
  change (String.eqb "application/x-www-form-urlencoded"
            "application/x-www-form-urlencoded") with true. cbn iota.
  rewrite ReadAll_limited_small by lia.
  replace (if is_maxBytesReader (Body r) then ReadAll (Body r) else ReadAll (Body r))
    with (ReadAll (Body r)) by (destruct (is_maxBytesReader (Body r)); reflexivity).
  unfold ReadAll.
  destruct (read_err (Body r)); [reflexivity |].
  destruct (negb _ && _); [reflexivity |].
  destruct (url_ParseQuery rt _); reflexivity.
Qed.

(** [ParseForm] reads the body only for POST, PUT and PATCH. *)
Lemma ParseForm_other_methods_keep_body (r : Request) :
  is_POST_PUT_PATCH (Method r) = false ->
  Body (fst (ParseForm rt r)) = Body r.
Proof.
  intros Hmeth. unfold ParseForm. rewrite Hmeth.
  destruct (PostForm r); destruct (Form r);
    try destruct (url_ParseQuery rt _); reflexivity.
Qed.

(** The json arm of the capture is the only one that assigns
    [c.Request.Body]; the octet-stream and default arms do not read it. *)
Lemma capture_leaves_request_outside_json_and_form (r : Request) :
  request_arm (ContentType r) = ReqOctet \/ request_arm (ContentType r) = ReqDefault ->
  snd (capture_request rt r) = r.
Proof.
  intros [Harm | Harm]; unfold capture_request; rewrite Harm; [reflexivity |].
  destruct (_ && _); reflexivity.
Qed.

(** C2: the form-encoded arm reads the body through [ParseForm] and puts
    nothing back.  For a POST, PUT or PATCH request whose content type
    is application/x-www-form-urlencoded, whose form has not been parsed
    yet and whose body is of ordinary size, the chain that runs after
    the capture finds an empty body stream, whatever bytes the body
    held. *)
Theorem C2_form_body_left_drained (c : Context) :
  ContentType (c_Request c) = "application/x-www-form-urlencoded" ->
  fst (mime_ParseMediaType rt (Header_Get (Headers (c_Request c)) "Content-Type"))
    = "application/x-www-form-urlencoded" ->
  is_POST_PUT_PATCH (Method (c_Request c)) = true ->
  PostForm (c_Request c) = None ->
  (Z.of_nat (List.length (pending (Body (c_Request c)))) <= defaultMaxFormSize)%Z ->
  fst (fst (ReadAll (Body (ch_request (snd (before_Next rt c)))))) = [].
Proof.
  intros Hct Hmime Hmeth Hpf Hlen.
  rewrite before_Next_request. unfold capture_request. rewrite Hct.
  cbn [request_arm snd].
  change (String.eqb "application/x-www-form-urlencoded" "application/json")
    with false.
  change (String.eqb "application/x-www-form-urlencoded"
            "application/x-www-form-urlencoded") with true.
  cbn iota. cbn [orb snd].
  assert (Hne : Header_Get (Headers (c_Request c)) "Content-Type" <> "").
  { apply filterFlags_nonempty. unfold ContentType in Hct. rewrite Hct. discriminate. }
  pose proof (parsePostForm_drains _ Hne Hmime Hlen) as Hdrain.
  unfold ParseForm. rewrite Hpf, Hmeth.
  destruct (parsePostForm rt (c_Request c)) as [[pf err] body'].
  cbn in Hdrain. subst body'.
  destruct (Form (c_Request c)); [reflexivity |].
  destruct (url_ParseQuery rt _); reflexivity.
Qed.

(** C8 as amended: for a request whose content type is application/json,
    if the body is empty or fails to decode, nothing is attached as
    request parameters (the value stays nil) and the chain that runs
    after the capture finds the original bytes in the body stream. *)
Theorem C8_json_skip_keeps_nil (c : Context) :
  ContentType (c_Request c) = "application/json" ->
  pending (Body (c_Request c)) = []
  \/ (exists e, Json.Unmarshal_map (pending (Body (c_Request c))) = inr e) ->
  rl_reqParams (fst (before_Next rt c)) = PNil
  /\ fst (ReadAll (Body (ch_request (snd (before_Next rt c)))))
     = (pending (Body (c_Request c)), false).
Proof.
  intros Hct Hskip.
  rewrite before_Next_params, before_Next_request, (capture_json rt _ Hct).
  split; [| reflexivity]. cbn [fst].
  destruct Hskip as [Hempty | [e He]].
  - rewrite Hempty. reflexivity.
  - rewrite He. destruct (0 <? _)%nat; reflexivity.
Qed.

(** C9 as amended: for a request whose content type is application/json,
    a syntactically valid body whose top-level value is an array, a
    string, a number or a boolean leaves the request parameters nil; a
    parameter value is attached only when the top-level value is an
    object or null; and in every case the chain that runs after the
    capture finds the original bytes in the body stream. *)
Theorem C9_only_object_or_null_normalized (c : Context) :
  ContentType (c_Request c) = "application/json" ->
  let body := pending (Body (c_Request c)) in
  (Json.checkValid body = true ->
   Json.top_kind body ∈ [Json.KArray; Json.KString; Json.KNumber; Json.KBool] ->
   rl_reqParams (fst (before_Next rt c)) = PNil)
  /\ (rl_reqParams (fst (before_Next rt c)) <> PNil ->
      Json.checkValid body = true
      /\ (Json.top_kind body = Json.KObject \/ Json.top_kind body = Json.KNull))
  /\ fst (ReadAll (Body (ch_request (snd (before_Next rt c))))) = (body, false).
Proof.
  intros Hct body.
  rewrite before_Next_params, before_Next_request, (capture_json rt _ Hct).
  cbn [fst snd]. fold body. unfold Json.Unmarshal_map.
  split; [| split; [| reflexivity]].
  - intros Hvalid Hkind. rewrite Hvalid. cbn [negb].
    destruct (0 <? _)%nat; [| reflexivity].
    rewrite !elem_of_cons in Hkind.
    destruct Hkind as [-> | [-> | [-> | [-> | Hnil]]]]; try reflexivity.
    inversion Hnil.
  - destruct (0 <? _)%nat; [| congruence].
    destruct (Json.checkValid body); cbn [negb]; [| congruence].
    destruct (Json.top_kind body); try congruence; auto.
Qed.

End RequestCapture.

(** C3 as amended: the request switch and the response switch put a
    content type in the same policy category exactly when it is neither
    audio/mpeg nor text/html; these two are answered with the binary
    marker on the response side and fall to the default arm on the
    request side. *)
Theorem C3_policies_agree_except_two (ct : string) :
  (ct <> "audio/mpeg" -> ct <> "text/html" ->
   request_policy ct = response_policy ct)
  /\ (ct = "audio/mpeg" \/ ct = "text/html" ->
      request_policy ct = UnsupportedPlaceholder
      /\ response_policy ct = BinaryPlaceholder).
Proof.
  split.
  - intros Hmpeg Hhtml.
    unfold request_policy, response_policy, request_arm, response_arm.
    rewrite (eqb_false_of_ne _ _ Hmpeg), (eqb_false_of_ne _ _ Hhtml).
    destruct (String.eqb ct "application/json"); [reflexivity |].
    destruct (String.eqb ct "application/x-www-form-urlencoded"); [reflexivity |].
    destruct (String.eqb ct "multipart/form-data"); [reflexivity |].
    destruct (String.eqb ct "application/octet-stream"); reflexivity.
  - intros [-> | ->]; split; reflexivity.
Qed.

(** C4: when [ensureDir] fails while the package variable [SugarLogger] is
    still nil (no earlier [InitLogger] has completed), the report goes
    through the nil logger: [InitLogger] panics, builds no logger and
    assigns nothing. *)
Theorem C4_dir_failure_before_first_init (fs : FileSystem) (filename : string)
    (maxSize maxBackups maxAge : Z) (compress : bool) (g : Globals) (e : string) :
  ensureDir fs filename = Some e ->
  SugarLogger g = None ->
  InitLogger fs filename maxSize maxBackups maxAge compress g
    = Panicked NilPointerDereference.
Proof.
  intros Hdir Hnil. unfold InitLogger, Errorf, sugar_log.
  rewrite Hdir, Hnil. reflexivity.
Qed.

(** With a logger left by an earlier [InitLogger], the failure is written
    at error level and the new logger replaces the old one. *)
Lemma InitLogger_dir_failure_reinit (fs : FileSystem) (filename : string)
    (maxSize maxBackups maxAge : Z) (compress : bool) (g : Globals)
    (e : string) (old : SugaredLogger) :
  ensureDir fs filename = Some e ->
  SugarLogger g = Some old ->
  min_level old = DebugLevel ->
  InitLogger fs filename maxSize maxBackups maxAge compress g
    = Returned
        {| SugarLogger :=
             Some {| file_sink := getLogWriter filename maxSize maxBackups maxAge compress;
                     min_level := DebugLevel; add_caller := true |};
           emitted := (emitted g ++ [(ErrorLevel, DirFailure e)])%list |}.
Proof.
  intros Hdir Hold Hlvl. unfold InitLogger, Errorf, sugar_log.
  rewrite Hdir, Hold, Hlvl. reflexivity.
Qed.

(** Without a directory failure [InitLogger] always returns and assigns. *)
Lemma InitLogger_dir_ok (fs : FileSystem) (filename : string)
    (maxSize maxBackups maxAge : Z) (compress : bool) (g : Globals) :
  ensureDir fs filename = None ->
  exists l, InitLogger fs filename maxSize maxBackups maxAge compress g
            = Returned {| SugarLogger := Some l; emitted := emitted g |}.
Proof.
  intros Hdir. unfold InitLogger. rewrite Hdir. eauto.
Qed.

(** * The properties at concrete inputs *)

Lemma C1_witness :
  ContentType (c_Request (json_post "[1,2")) = "application/json"
  /\ pending (Body (c_Request (json_post "[1,2"))) = list_ascii_of_string "[1,2"
  /\ fst (ReadAll (Body (ch_request
        (snd (before_Next SampleRuntime.runtime (json_post "[1,2"))))))
     = (list_ascii_of_string "[1,2", false).
Proof.
  split; [vm_compute; reflexivity |]. split; [reflexivity |].
  apply (C1_json_body_restored SampleRuntime.runtime (json_post "[1,2")
           (list_ascii_of_string "[1,2")); vm_compute; reflexivity.
Defined.

(** A form-encoded POST carrying [a=1&b=2]: the fields reach the log, and
    the handler that reads the body stream afterwards receives nothing. *)
Lemma C2_witness :
  pending (Body (c_Request form_post)) = list_ascii_of_string "a=1&b=2"
  /\ fst (fst (ReadAll (Body (ch_request
        (snd (before_Next SampleRuntime.runtime form_post)))))) = [].
Proof.
  split; [reflexivity |].
  apply (C2_form_body_left_drained SampleRuntime.runtime form_post);
    vm_compute; first [reflexivity | discriminate].
Defined.

Lemma C3_counterexample :
  request_policy "text/html" <> response_policy "text/html".
Proof. vm_compute. discriminate. Qed.

Lemma C3_witness :
  request_policy "application/octet-stream" = response_policy "application/octet-stream".
Proof.
  destruct (C3_policies_agree_except_two "application/octet-stream") as [Hsame _].
  apply Hsame; discriminate.
Defined.

Lemma C4_witness :
  ensureDir read_only_fs "/srv/logs/app.log"
    = Some "mkdir /srv/logs: read-only file system"
  /\ InitLogger read_only_fs "/srv/logs/app.log" 10 5 30 false never_initialised
     = Panicked NilPointerDereference.
Proof.
  split; [vm_compute; reflexivity |].
  apply (C4_dir_failure_before_first_init read_only_fs "/srv/logs/app.log"
           10 5 30 false never_initialised "mkdir /srv/logs: read-only file system");
    vm_compute; reflexivity.
Defined.

Lemma C5_witness :
  rl_reqParams (fst (before_Next SampleRuntime.runtime octet_post))
    = PString "[BINARY DATA]"
  /\ ch_request (snd (before_Next SampleRuntime.runtime octet_post))
     = c_Request octet_post.
Proof.
  apply (C5_octet_stream_placeholder SampleRuntime.runtime octet_post).
  vm_compute; reflexivity.
Defined.



(** A GET request without body and with the query [a=1]: the body is
    empty, yet the parsed query is attached as request parameters. *)
Lemma C8_counterexample :
  pending (Body (c_Request get_with_query)) = []
  /\ rl_reqParams (fst (before_Next SampleRuntime.runtime get_with_query))
     = PValues (Some {[ "a" := ["1"] ]})
  /\ rl_reqParams (fst (before_Next SampleRuntime.runtime get_with_query)) <> PNil.
Proof.
  split; [reflexivity |]. split; [vm_compute; reflexivity | vm_compute; discriminate].
Qed.

Lemma C8_witness :
  Json.Unmarshal_map (list_ascii_of_string "{,}") = inr Json.SyntaxError
  /\ rl_reqParams (fst (before_Next SampleRuntime.runtime (json_post "{,}"))) = PNil
  /\ fst (ReadAll (Body (ch_request
        (snd (before_Next SampleRuntime.runtime (json_post "{,}"))))))
     = (list_ascii_of_string "{,}", false).
Proof.
  split; [vm_compute; reflexivity |].
  apply (C8_json_skip_keeps_nil SampleRuntime.runtime (json_post "{,}")).
  - vm_compute; reflexivity.
  - right. exists Json.SyntaxError. vm_compute; reflexivity.
Defined.

(** The body [null] is valid JSON whose top-level value is null; it
    decodes without error into the nil map, and [null] is attached. *)
Lemma C9_counterexample :
  Json.checkValid (pending (Body (c_Request (json_post "null")))) = true
  /\ Json.top_kind (pending (Body (c_Request (json_post "null")))) = Json.KNull
  /\ rl_reqParams (fst (before_Next SampleRuntime.runtime (json_post "null")))
     = PString "null".
Proof. repeat split; vm_compute; reflexivity. Qed.

Lemma C9_witness :
  Json.checkValid (list_ascii_of_string "[1, 2]") = true
  /\ Json.top_kind (list_ascii_of_string "[1, 2]") = Json.KArray
  /\ rl_reqParams (fst (before_Next SampleRuntime.runtime (json_post "[1, 2]"))) = PNil
  /\ fst (ReadAll (Body (ch_request
        (snd (before_Next SampleRuntime.runtime (json_post "[1, 2]"))))))
     = (list_ascii_of_string "[1, 2]", false).
Proof.
  split; [vm_compute; reflexivity |]. split; [vm_compute; reflexivity |].
  pose proof (C9_only_object_or_null_normalized SampleRuntime.runtime
                (json_post "[1, 2]")) as H.
  destruct H as (Hkinds & _ & Hbody); [vm_compute; reflexivity |].
  split; [| exact Hbody].
  apply Hkinds; [vm_compute; reflexivity |].
  replace (Json.top_kind _) with Json.KArray by (vm_compute; reflexivity).
  rewrite elem_of_cons. left. reflexivity.
Defined.

(** Without a logger the run panics; so does a run that starts with a
    logger when a handler sets the variable back to nil. *)
Lemma C10_witness :
  HttpLogger SampleRuntime.runtime echo_handler (json_post "{}") never_initialised
    = Panicked NilPointerDereference
  /\ HttpLogger SampleRuntime.runtime unsetting_handler (json_post "{}") initialised
      = Panicked NilPointerDereference.
Proof.
  split.
  - refine (proj1 (C10_logger_must_be_initialised SampleRuntime.runtime echo_handler
                     (json_post "{}") never_initialised) _ _ eq_refl eq_refl).
  - refine (proj1 (C10_logger_must_be_initialised SampleRuntime.runtime
                     unsetting_handler (json_post "{}") initialised) _ _ eq_refl eq_refl).
Defined.

(** * Further properties of the request capture *)

Section CaptureProperties.

Variable rt : GoRuntime.

Lemma ParseForm_keeps_request_line (r : Request) :
  let r' := fst (ParseForm rt r) in
  Method r' = Method r /\ URL_Path r' = URL_Path r
  /\ URL_RawQuery r' = URL_RawQuery r /\ Headers r' = Headers r.
Proof.
  unfold ParseForm.
  destruct (PostForm r); [| destruct (is_POST_PUT_PATCH (Method r));
                            [destruct (parsePostForm rt r) as [[pf e] b] |]];
    destruct (Form r); try destruct (url_ParseQuery rt _);
    cbn; repeat split; reflexivity.
Qed.

Lemma ParseForm_sets_both_maps (r : Request) :
  is_Some (Form (fst (ParseForm rt r))) /\ is_Some (PostForm (fst (ParseForm rt r))).
Proof.
  unfold ParseForm.
  destruct (PostForm r); [| destruct (is_POST_PUT_PATCH (Method r));
                            [destruct (parsePostForm rt r) as [[pf e] b] |]];
    destruct (Form r); try destruct (url_ParseQuery rt _);
    cbn; split; eauto.
Qed.

(** [ParseForm] on a request whose two maps are set changes nothing. *)
Lemma ParseForm_already_parsed (r : Request) :
  is_Some (Form r) -> is_Some (PostForm r) -> fst (ParseForm rt r) = r.
Proof.
  intros [f Hf] [pf Hpf]. unfold ParseForm. rewrite Hf, Hpf. cbn.
  destruct r; cbn in *; subst; reflexivity.
Qed.

Lemma ParseForm_parsed_post_keeps_body (r : Request) :
  is_Some (PostForm r) -> Body (fst (ParseForm rt r)) = Body r.
Proof.
  intros [pf Hpf]. unfold ParseForm. rewrite Hpf.
  destruct (Form r); try destruct (url_ParseQuery rt _); reflexivity.
Qed.

Lemma capture_form (r : Request) :
  request_arm (ContentType r) = ReqForm ->
  capture_request rt r = (PValues (Form (fst (ParseForm rt r))), fst (ParseForm rt r)).
Proof. intros Harm. unfold capture_request. rewrite Harm. reflexivity. Qed.

Lemma request_arm_json (ct : string) :
  request_arm ct = ReqJSON -> ct = "application/json".
Proof.
  unfold request_arm. destruct (String.eqb_spec ct "application/json"); [auto |].
  destruct (_ || _); [discriminate |]. destruct (String.eqb _ _); discriminate.
Qed.

(** X1: whatever arm the capture takes, the request handed on to the
    chain has the method, path, raw query and headers it came with; only
    the body stream and the two form maps can differ. *)
Theorem capture_keeps_request_line (c : Context) :
  let r := c_Request c in
  let r' := ch_request (snd (before_Next rt c)) in
  Method r' = Method r /\ URL_Path r' = URL_Path r
  /\ URL_RawQuery r' = URL_RawQuery r /\ Headers r' = Headers r.
Proof.
  cbn zeta. rewrite before_Next_request.
  destruct (request_arm (ContentType (c_Request c))) eqn:Harm.
  - rewrite (capture_json rt _ (request_arm_json _ Harm)). cbn. auto.
  - rewrite (capture_form _ Harm). cbn [snd]. apply ParseForm_keeps_request_line.
  - rewrite capture_leaves_request_outside_json_and_form by auto. auto.
  - rewrite capture_leaves_request_outside_json_and_form by auto. auto.
Qed.

(** X2: the capture can be repeated: run on the request a first capture
    has left, it yields the same parameter value and leaves the request
    as it found it.  Installing the interceptor twice in a chain logs the
    same request parameters twice. *)
Theorem capture_request_idempotent (r : Request) :
  capture_request rt (snd (capture_request rt r)) = capture_request rt r.
Proof.
  destruct (request_arm (ContentType r)) eqn:Harm.
  - pose proof (request_arm_json _ Harm) as Hct.
    rewrite (capture_json rt r Hct). cbn [snd].
    rewrite (capture_json rt (set_Body _ r)) by exact Hct. reflexivity.
  - rewrite (capture_form _ Harm). cbn [snd].
    destruct (ParseForm_keeps_request_line r) as (_ & _ & _ & Hh).
    destruct (ParseForm_sets_both_maps r) as [Hf Hpf].
    rewrite capture_form by (unfold ContentType in *; rewrite Hh; exact Harm).
    rewrite (ParseForm_already_parsed _ Hf Hpf). reflexivity.
  - rewrite (capture_leaves_request_outside_json_and_form rt r) by auto. reflexivity.
  - rewrite (capture_leaves_request_outside_json_and_form rt r) by auto. reflexivity.
Qed.

(** X3: outside the one case of C2 the capture is transparent for the
    body: when the arm taken is not the form arm, or the method is none of
    POST, PUT and PATCH, or the post form has been parsed before, the
    chain finds in the body stream the bytes the request came with. *)
Theorem body_bytes_survive_capture (c : Context) :
  request_arm (ContentType (c_Request c)) <> ReqForm
  \/ is_POST_PUT_PATCH (Method (c_Request c)) = false
  \/ is_Some (PostForm (c_Request c)) ->
  fst (fst (ReadAll (Body (ch_request (snd (before_Next rt c))))))
  = pending (Body (c_Request c)).
Proof.
  intros Hcase. rewrite before_Next_request. cbn [ReadAll fst].
  destruct (request_arm (ContentType (c_Request c))) eqn:Harm.
  - rewrite (capture_json rt _ (request_arm_json _ Harm)). reflexivity.
  - rewrite (capture_form _ Harm). cbn [snd].
    destruct Hcase as [Hno | [Hmeth | Hparsed]]; [congruence | |].
    + rewrite ParseForm_other_methods_keep_body by exact Hmeth. reflexivity.
    + rewrite ParseForm_parsed_post_keeps_body by exact Hparsed. reflexivity.
  - rewrite capture_leaves_request_outside_json_and_form by auto. reflexivity.
  - rewrite capture_leaves_request_outside_json_and_form by auto. reflexivity.
Qed.

(** X4: in the form arm the logged parameter value is always a map that
    is not nil, and the chain receives a request whose [Form] and
    [PostForm] are both set, also when the body could not be read or
    parsed. *)
Theorem form_arm_logs_a_map (c : Context) :
  request_arm (ContentType (c_Request c)) = ReqForm ->
  let r' := ch_request (snd (before_Next rt c)) in
  (exists values, rl_reqParams (fst (before_Next rt c)) = PValues (Some values)
                  /\ Form r' = Some values)
  /\ is_Some (PostForm r').
Proof.
  intros Harm. cbn zeta.
  rewrite before_Next_params, before_Next_request, (capture_form _ Harm).
  cbn [fst snd].
  destruct (ParseForm_sets_both_maps (c_Request c)) as [[f Hf] Hpf].
  split; [| exact Hpf]. exists f. rewrite Hf. auto.
Qed.

(** X5: a request without a Content-Type header takes the default arm.
    Its query is logged only for the method GET and only when it parses
    to at least one key; in every other case the entry carries the
    marker with an empty content type, [[UNSUPPORTED CONTENT TYPE: ]]. *)
Theorem no_content_type_header (c : Context) :
  Headers (c_Request c) !! "Content-Type" = None ->
  let query := URL_Query rt (c_Request c) in
  (Method (c_Request c) = "GET" -> size query <> 0 ->
   rl_reqParams (fst (before_Next rt c)) = PValues (Some query))
  /\ (Method (c_Request c) <> "GET" \/ size query = 0 ->
      rl_reqParams (fst (before_Next rt c)) = PString "[UNSUPPORTED CONTENT TYPE: ]").
Proof.
  intros Hnone. cbn zeta. rewrite before_Next_params.
  assert (Hct : ContentType (c_Request c) = "").
  { unfold ContentType, Header_Get. rewrite Hnone. reflexivity. }
  unfold capture_request. rewrite Hct. cbn [request_arm].
  change (request_arm "") with ReqDefault. cbn iota.
  split.
  - intros Hget Hsize. rewrite Hget. cbn [String.eqb andb].
    change (String.eqb "GET" "GET") with true. cbn [andb].
    destruct (Nat.ltb_spec 0 (size (URL_Query rt (c_Request c)))); [reflexivity | lia].
  - intros [Hmeth | Hsize].
    + rewrite (eqb_false_of_ne _ _ Hmeth). reflexivity.
    + rewrite Hsize. rewrite andb_false_r. reflexivity.
Qed.

End CaptureProperties.

(** * The JSON arm and the decoder *)

Lemma checkValid_from_blanks (ws : list ascii) :
  Forall (fun c => Json.isSpace c = true) ws ->
  Json.checkValid_from Json.reset ws = false.
Proof.
  induction 1 as [| c ws Hc _ IH]; [reflexivity |].
  cbn [Json.checkValid_from]. unfold Json.scan_step. cbn [Json.step Json.reset].
  unfold Json.do_stateBeginValue. rewrite Hc. exact IH.
Qed.

Lemma Unmarshal_map_nil : Json.Unmarshal_map [] = inr Json.SyntaxError.
Proof. reflexivity. Qed.

Section JsonArm.

Variable rt : GoRuntime.

(** X6: in the json arm the logged parameter value is decided by the
    decoder alone: it is the re-encoded text when [json.Unmarshal] accepts
    the body and nil when it does not.  The length test in front of the
    decoder never changes the outcome, since the decoder rejects the
    empty input. *)
Theorem json_params_follow_decoder (c : Context) :
  ContentType (c_Request c) = "application/json" ->
  rl_reqParams (fst (before_Next rt c)) =
    match Json.Unmarshal_map (pending (Body (c_Request c))) with
    | inl m => PString (string_of_list_ascii (fst (json_Marshal rt m)))
    | inr _ => PNil
    end.
Proof.
  intros Hct. rewrite before_Next_params, (capture_json rt _ Hct). cbn [fst].
  destruct (pending (Body (c_Request c))) as [| b bs] eqn:Hbody.
  - rewrite Unmarshal_map_nil. reflexivity.
  - reflexivity.
Qed.

(** X7: a json request whose body holds nothing but blanks, tabs and line
    ends (or nothing at all) is logged without parameters. *)
Theorem json_blank_body_logs_nothing (c : Context) :
  ContentType (c_Request c) = "application/json" ->
  Forall (fun b => Json.isSpace b = true) (pending (Body (c_Request c))) ->
  rl_reqParams (fst (before_Next rt c)) = PNil.
Proof.
  intros Hct Hblank. rewrite before_Next_params, (capture_json rt _ Hct). cbn [fst].
  unfold Json.Unmarshal_map, Json.checkValid.
  rewrite (checkValid_from_blanks _ Hblank).
  destruct (0 <? _)%nat; reflexivity.
Qed.

End JsonArm.

(** * The response side *)

Lemma before_first_app (sep : ascii) (s rest : string) :
  contains_byte sep s = false ->
  before_first sep (s ++ String sep rest) = s.
Proof.
  induction s as [| ch s IH].
  - intros _. change ("" ++ String sep rest) with (String sep rest).
    cbn [before_first]. rewrite Ascii.eqb_refl. reflexivity.
  - change (String ch s ++ String sep rest) with (String ch (s ++ String sep rest)).
    cbn [contains_byte before_first].
    intros Hno. apply orb_false_elim in Hno as [Hch Hs].
    rewrite Hch. f_equal. auto.
Qed.

Lemma before_first_without (sep : ascii) (s : string) :
  contains_byte sep s = false -> before_first sep s = s.
Proof.
  induction s as [| ch s IH]; cbn [contains_byte before_first]; [reflexivity |].
  intros Hno. apply orb_false_elim in Hno as [Hch Hs].
  rewrite Hch. f_equal. auto.
Qed.

Lemma length_string_of_list_ascii (l : list ascii) :
  String.length (string_of_list_ascii l) = List.length l.
Proof. induction l; cbn; congruence. Qed.

Section ResponseSide.

Variable rt : GoRuntime.

(** X8: parameters after the media type do not matter on the response
    side: a response whose Content-Type header is [ct;params] is logged
    exactly like one with the same body whose header is the bare [ct]. *)
Theorem response_type_parameters_ignored
    (id1 id2 : string) (start1 start2 : Z) (after1 after2 : Chain)
    (ct params : string) :
  contains_byte ";" ct = false ->
  Header_Get (recorder_Header (ch_recorder after1)) "Content-Type" = ct ->
  Header_Get (recorder_Header (ch_recorder after2)) "Content-Type"
    = ct ++ ";" ++ params ->
  rec_Body (ch_recorder after1) = rec_Body (ch_recorder after2) ->
  pl_responseData (after_Next rt id1 start1 after1)
  = pl_responseData (after_Next rt id2 start2 after2).
Proof.
  intros Hno H1 H2 Hbody. unfold after_Next; cbn [pl_responseData].
  rewrite H1, H2, Hbody. unfold SplitN2_head.
  change (ct ++ ";" ++ params) with (ct ++ String ";" params).
  rewrite before_first_app, before_first_without by exact Hno. reflexivity.
Qed.

(** X9: for the pass-through types (application/json and the two form
    types) the logged response data is the recorded body byte for byte,
    and the logged size is its length; for every other type the logged
    data is a marker fixed by the content type alone, while the size
    still counts the recorded bytes. *)
Theorem response_data_is_body_or_marker (requestId : string) (start : Z)
    (after : Chain) :
  let entry := after_Next rt requestId start after in
  let body := rec_Body (ch_recorder after) in
  let respCT :=
    SplitN2_head (Header_Get (recorder_Header (ch_recorder after)) "Content-Type") in
  pl_size entry = Z.of_nat (List.length body)
  /\ (respCT ∈ ["application/json"; "application/x-www-form-urlencoded";
                "multipart/form-data"] ->
      list_ascii_of_string (pl_responseData entry) = body
      /\ Z.of_nat (String.length (pl_responseData entry)) = pl_size entry)
  /\ (respCT ∉ ["application/json"; "application/x-www-form-urlencoded";
                "multipart/form-data"] ->
      pl_responseData entry = "[BINARY DATA]"
      \/ pl_responseData entry = "[UNSUPPORTED CONTENT TYPE: " ++ respCT ++ "]").
Proof.
  cbn zeta. unfold after_Next; cbn [pl_responseData pl_size].
  set (respCT := SplitN2_head _). set (body := rec_Body _).
  split; [reflexivity |]. split.
  - intros Hin.
    assert (Hdata : response_data respCT body = string_of_list_ascii body).
    { rewrite !elem_of_cons in Hin.
      destruct Hin as [-> | [-> | [-> | Hnil]]]; try reflexivity. inversion Hnil. }
    rewrite Hdata, list_ascii_of_string_of_list_ascii, length_string_of_list_ascii.
    auto.
  - intros Hout. rewrite !not_elem_of_cons in Hout.
    destruct Hout as (H1 & H2 & H3 & _).
    unfold response_data, response_arm.
    rewrite !eqb_false_of_ne by assumption. cbn [orb].
    destruct (_ || _); auto.
Qed.

End ResponseSide.

(** * The package variable and the log *)

Lemma sugar_log_with_logger (lvl : Level) (msg : LogMessage) (g : Globals)
    (l : SugaredLogger) :
  SugarLogger g = Some l ->
  (level_rank (min_level l) <= level_rank lvl)%Z ->
  sugar_log lvl msg g
  = Returned {| SugarLogger := Some l; emitted := (emitted g ++ [(lvl, msg)])%list |}.
Proof.
  intros Hl Hlvl. unfold sugar_log. rewrite Hl.
  destruct (Z.leb_spec (level_rank (min_level l)) (level_rank lvl)); [reflexivity | lia].
Qed.

Lemma level_rank_le_error (l : Level) : (level_rank l <= level_rank ErrorLevel)%Z.
Proof. destruct l; cbn; lia. Qed.

Lemma InitLogger_returned (fs : FileSystem) (filename : string)
    (maxSize maxBackups maxAge : Z) (compress : bool) (g g' : Globals) :
  InitLogger fs filename maxSize maxBackups maxAge compress g = Returned g' ->
  SugarLogger g'
  = Some {| file_sink := {| Filename := filename; MaxSize := maxSize;
                            MaxBackups := maxBackups; MaxAge := maxAge;
                            Compress := compress |};
            min_level := DebugLevel; add_caller := true |}
  /\ exists added, emitted g' = (emitted g ++ added)%list
                   /\ (List.length added <= 1)%nat
                   /\ (ensureDir fs filename = None -> added = []).
Proof.
  unfold InitLogger, Errorf, sugar_log.
  destruct (ensureDir fs filename) as [e |].
  - destruct (SugarLogger g) as [old |]; [| discriminate].
    destruct (_ <=? _)%Z; intros [= <-]; cbn; (split; [reflexivity |]).
    + exists [(ErrorLevel, DirFailure e)]. repeat split; auto. discriminate.
    + exists []. rewrite app_nil_r. repeat split; auto.
  - intros [= <-]; cbn. split; [reflexivity |].
    exists []. rewrite app_nil_r. repeat split; auto.
Qed.

Section PackageState.

Variable rt : GoRuntime.

(** X10: when the handlers return and leave a logger installed whose
    level lets info lines through, the run returns the chain state they
    left, keeps that logger, and appends exactly one line to the log: the
    entry of this request, at info level, after everything that was
    logged before and by the handlers. *)
Theorem HttpLogger_appends_one_entry (next : Handler) (c : Context) (g g1 : Globals)
    (requestLog : RequestLog) (responseLog : ResponseLog) (after : Chain)
    (l : SugaredLogger) :
  trace rt next c g = Returned (requestLog, responseLog, after, g1) ->
  SugarLogger g1 = Some l ->
  min_level l = DebugLevel \/ min_level l = InfoLevel ->
  HttpLogger rt next c g
  = Returned
      (after,
       {| SugarLogger := Some l;
          emitted := (emitted g1 ++
                      [(InfoLevel, HttpTrace requestLog responseLog)])%list |}).
Proof.
  intros Htrace Hl Hlvl. unfold HttpLogger, Infof. rewrite Htrace.
  rewrite (sugar_log_with_logger _ _ _ _ Hl); [reflexivity |].
  destruct Hlvl as [-> | ->]; cbn; lia.
Qed.

(** X12: [InitLogger] establishes what the closure needs: after a call
    of [InitLogger] that returned, a run whose handlers return without
    assigning the package variable returns as well and adds its one
    entry after the lines the handlers logged. *)
Theorem HttpLogger_after_InitLogger (fs : FileSystem) (filename : string)
    (maxSize maxBackups maxAge : Z) (compress : bool) (g g' g1 : Globals)
    (next : Handler) (c : Context)
    (requestLog : RequestLog) (responseLog : ResponseLog) (after : Chain) :
  InitLogger fs filename maxSize maxBackups maxAge compress g = Returned g' ->
  trace rt next c g' = Returned (requestLog, responseLog, after, g1) ->
  SugarLogger g1 = SugarLogger g' ->
  HttpLogger rt next c g'
  = Returned
      (after,
       {| SugarLogger := SugarLogger g';
          emitted := (emitted g1 ++
                      [(InfoLevel, HttpTrace requestLog responseLog)])%list |}).
Proof.
  intros Hinit Htrace Hsame.
  destruct (InitLogger_returned _ _ _ _ _ _ _ _ Hinit) as [Hl _].
  unfold HttpLogger, Infof. rewrite Htrace.
  rewrite Hl in Hsame |- *.
  rewrite (sugar_log_with_logger _ _ _ _ Hsame) by (cbn; lia). reflexivity.
Qed.

End PackageState.

(** X11: [InitLogger] panics exactly when the directory cannot be
    prepared and no logger has been installed before.  Whenever it
    returns, the package variable holds a new logger with the file name
    and rotation settings of this call, at debug level with caller
    annotation; the log grows by at most one line, and by none when the
    directory was fine. *)
Theorem InitLogger_outcome (fs : FileSystem) (filename : string)
    (maxSize maxBackups maxAge : Z) (compress : bool) (g : Globals) :
  (InitLogger fs filename maxSize maxBackups maxAge compress g
     = Panicked NilPointerDereference
   <-> is_Some (ensureDir fs filename) /\ SugarLogger g = None)
  /\ (forall g',
        InitLogger fs filename maxSize maxBackups maxAge compress g = Returned g' ->
        SugarLogger g'
        = Some {| file_sink := {| Filename := filename; MaxSize := maxSize;
                                  MaxBackups := maxBackups; MaxAge := maxAge;
                                  Compress := compress |};
                  min_level := DebugLevel; add_caller := true |}
        /\ exists added, emitted g' = (emitted g ++ added)%list
                         /\ (List.length added <= 1)%nat
                         /\ (ensureDir fs filename = None -> added = [])).
Proof.
  split; [| intros g'; apply InitLogger_returned].
  unfold InitLogger, Errorf, sugar_log.
  destruct (ensureDir fs filename) as [e |]; destruct (SugarLogger g) as [old |].
  - destruct (_ <=? _)%Z; split; try discriminate; intros [_ [=]].
  - split; [eauto | reflexivity].
  - split; [discriminate | intros [[e He] _]; discriminate].
  - split; [discriminate | intros [[e He] _]; discriminate].
Qed.



(** * [ensureDir] and the directory of the log file *)

Lemma contains_byte_app_sep (sep : ascii) (d rest : string) :
  contains_byte sep (d ++ String sep rest) = true.
Proof.
  induction d as [| ch d IH].
  - change ("" ++ String sep rest) with (String sep rest).
    cbn [contains_byte]. rewrite Ascii.eqb_refl. reflexivity.
  - change (String ch d ++ String sep rest) with (String ch (d ++ String sep rest)).
    cbn [contains_byte]. rewrite IH. apply orb_true_r.
Qed.

Lemma Split_dir_app (d name : string) :
  contains_byte "/" name = false ->
  Path.Split_dir (d ++ String "/" name) = d ++ "/".
Proof.
  intros Hname. induction d as [| ch d IH].
  - change ("" ++ String "/" name) with (String "/" name).
    cbn [Path.Split_dir]. rewrite Hname. reflexivity.
  - change (String ch d ++ String "/" name) with (String ch (d ++ String "/" name)).
    cbn [Path.Split_dir]. rewrite contains_byte_app_sep, IH. reflexivity.
Qed.

Lemma Split_dir_bare (name : string) :
  contains_byte "/" name = false -> Path.Split_dir name = "".
Proof.
  destruct name as [| ch name]; [reflexivity |].
  cbn [contains_byte Path.Split_dir]. intros Hno.
  apply orb_false_elim in Hno as [Hch Hrest]. rewrite Hrest, Hch. reflexivity.
Qed.

(** X14: [ensureDir] looks at the directory part of the path only: two
    log files in the same directory get the same answer, whatever their
    names. *)
Theorem ensureDir_same_directory (fs : FileSystem) (dir name1 name2 : string) :
  contains_byte "/" name1 = false ->
  contains_byte "/" name2 = false ->
  ensureDir fs (dir ++ "/" ++ name1) = ensureDir fs (dir ++ "/" ++ name2).
Proof.
  intros H1 H2. unfold ensureDir, Path.Dir.
  change (dir ++ "/" ++ name1) with (dir ++ String "/" name1).
  change (dir ++ "/" ++ name2) with (dir ++ String "/" name2).
  rewrite !Split_dir_app by assumption. reflexivity.
Qed.

(** X15: for a file name without any slash [ensureDir] works on the
    current directory [.]: it reports the error of creating [.] when
    stat says that [.] does not exist, and no error otherwise. *)
Theorem ensureDir_bare_file_name (fs : FileSystem) (name : string) :
  contains_byte "/" name = false ->
  ensureDir fs name
  = if stat_IsNotExist fs "." then MkdirAll_error fs "." else None.
Proof.
  intros Hno. unfold ensureDir, Path.Dir. rewrite (Split_dir_bare _ Hno).
  reflexivity.
Qed.

(** * The form arm on requests without a form body *)

(** X16: a request that takes the form arm with a method other than
    POST, PUT and PATCH, and whose form has not been parsed before, is
    logged with the values of its URL query (an empty map when there is
    no query); its body plays no part. *)
Theorem form_arm_without_body_logs_query (rt : GoRuntime) (c : Context) :
  request_arm (ContentType (c_Request c)) = ReqForm ->
  is_POST_PUT_PATCH (Method (c_Request c)) = false ->
  Form (c_Request c) = None ->
  PostForm (c_Request c) = None ->
  rl_reqParams (fst (before_Next rt c)) = PValues (Some (URL_Query rt (c_Request c))).
Proof.
  intros Harm Hmeth Hform Hpost.
  rewrite before_Next_params, (capture_form rt _ Harm). cbn [fst].
  unfold ParseForm, URL_Query. rewrite Hpost, Hmeth, Hform. cbn [default].
  destruct (url_ParseQuery rt _) as [newValues e]. cbn.
  rewrite map_size_empty. reflexivity.
Qed.

(** * The further properties at concrete inputs *)

Lemma body_bytes_survive_capture_witness :
  fst (fst (ReadAll (Body (ch_request (snd (before_Next SampleRuntime.runtime form_get))))))
  = list_ascii_of_string "ignored".
Proof.
  apply (body_bytes_survive_capture SampleRuntime.runtime form_get).
  right. left. vm_compute; reflexivity.
Defined.

Lemma form_arm_logs_a_map_witness :
  (exists values,
     rl_reqParams (fst (before_Next SampleRuntime.runtime form_post))
       = PValues (Some values)
     /\ Form (ch_request (snd (before_Next SampleRuntime.runtime form_post)))
        = Some values)
  /\ is_Some (PostForm (ch_request (snd (before_Next SampleRuntime.runtime form_post)))).
Proof.
  apply (form_arm_logs_a_map SampleRuntime.runtime form_post).
  vm_compute; reflexivity.
Defined.

Lemma no_content_type_header_witness :
  rl_reqParams (fst (before_Next SampleRuntime.runtime delete_with_query))
  = PString "[UNSUPPORTED CONTENT TYPE: ]".
Proof.
  destruct (no_content_type_header SampleRuntime.runtime delete_with_query)
    as [_ Hmarker]; [vm_compute; reflexivity |].
  apply Hmarker. left. vm_compute. discriminate.
Defined.

Lemma json_params_follow_decoder_witness :
  rl_reqParams (fst (before_Next SampleRuntime.runtime (json_post "{}")))
  = PString "{}".
Proof.
  rewrite (json_params_follow_decoder SampleRuntime.runtime (json_post "{}"))
    by (vm_compute; reflexivity).
  vm_compute; reflexivity.
Defined.

Lemma json_blank_body_logs_nothing_witness :
  rl_reqParams (fst (before_Next SampleRuntime.runtime (json_post "  "))) = PNil.
Proof.
  apply (json_blank_body_logs_nothing SampleRuntime.runtime (json_post "  ")).
  - vm_compute; reflexivity.
  - repeat constructor.
Defined.

Lemma response_type_parameters_ignored_witness :
  pl_responseData
    (after_Next SampleRuntime.runtime "" 0
       (answer_json_chain "application/json"
          (snd (before_Next SampleRuntime.runtime get_with_query))))
  = pl_responseData
      (after_Next SampleRuntime.runtime "" 0
         (answer_json_chain "application/json; charset=utf-8"
            (snd (before_Next SampleRuntime.runtime get_with_query)))).
Proof.
  apply (response_type_parameters_ignored SampleRuntime.runtime "" "" 0 0
           (answer_json_chain "application/json"
              (snd (before_Next SampleRuntime.runtime get_with_query)))
           (answer_json_chain "application/json; charset=utf-8"
              (snd (before_Next SampleRuntime.runtime get_with_query)))
           "application/json" " charset=utf-8");
    vm_compute; reflexivity.
Defined.

Lemma response_data_is_body_or_marker_witness :
  list_ascii_of_string
    (pl_responseData
       (after_Next SampleRuntime.runtime "" 0
          (answer_json_chain "application/json; charset=utf-8"
             (snd (before_Next SampleRuntime.runtime get_with_query)))))
  = list_ascii_of_string "{}".
Proof.
  destruct (response_data_is_body_or_marker SampleRuntime.runtime "" 0
              (answer_json_chain "application/json; charset=utf-8"
                 (snd (before_Next SampleRuntime.runtime get_with_query))))
    as (_ & Hpass & _).
  destruct Hpass as [Hbody _]; [| exact Hbody].
  replace (SplitN2_head _) with "application/json" by (vm_compute; reflexivity).
  rewrite elem_of_cons. left. reflexivity.
Defined.

(** A handler that writes a line of its own: the entry of the request
    comes after it. *)
Lemma HttpLogger_appends_one_entry_witness :
  exists after entry,
    HttpLogger SampleRuntime.runtime logging_handler get_with_query initialised
    = Returned (after, {| SugarLogger := Some debug_logger;
                          emitted := [(InfoLevel, Text "handling");
                                      (InfoLevel, entry)] |}).
Proof.
  eexists _, _.
  apply (HttpLogger_appends_one_entry SampleRuntime.runtime logging_handler
           get_with_query initialised
           {| SugarLogger := Some debug_logger;
              emitted := [(InfoLevel, Text "handling")] |}
           _ _ _ debug_logger eq_refl eq_refl).
  left. reflexivity.
Defined.

Lemma InitLogger_outcome_witness :
  InitLogger plain_fs "logs/app.log" 10 5 30 true never_initialised
  = Returned initialised.
Proof.
  destruct (InitLogger_outcome plain_fs "logs/app.log" 10 5 30 true never_initialised)
    as [_ Hreturned].
  destruct (Hreturned initialised) as [Hlogger _]; vm_compute; reflexivity.
Defined.

Lemma HttpLogger_after_InitLogger_witness :
  exists after entry,
    InitLogger plain_fs "logs/app.log" 10 5 30 true never_initialised
    = Returned initialised
    /\ HttpLogger SampleRuntime.runtime json_handler get_with_query initialised
       = Returned (after, {| SugarLogger := Some debug_logger;
                             emitted := [(InfoLevel, entry)] |}).
Proof.
  eexists _, _. split; [reflexivity |].
  apply (HttpLogger_after_InitLogger SampleRuntime.runtime plain_fs "logs/app.log"
           10 5 30 true never_initialised initialised initialised
           json_handler get_with_query _ _ _ eq_refl eq_refl eq_refl).
Defined.


Lemma ensureDir_same_directory_witness :
  ensureDir read_only_fs ("/srv/logs" ++ "/" ++ "app.log")
  = ensureDir read_only_fs ("/srv/logs" ++ "/" ++ "audit.log").
Proof.
  apply (ensureDir_same_directory read_only_fs "/srv/logs" "app.log" "audit.log");
    vm_compute; reflexivity.
Defined.

Lemma ensureDir_bare_file_name_witness :
  ensureDir read_only_fs "app.log" = Some "mkdir .: read-only file system".
Proof.
  rewrite (ensureDir_bare_file_name read_only_fs "app.log") by (vm_compute; reflexivity).
  vm_compute; reflexivity.
Defined.

Lemma form_arm_without_body_logs_query_witness :
  rl_reqParams (fst (before_Next SampleRuntime.runtime form_get))
  = PValues (Some {[ "a" := ["1"] ]}).
Proof.
  rewrite (form_arm_without_body_logs_query SampleRuntime.runtime form_get)
    by (vm_compute; reflexivity).
  vm_compute; reflexivity.
Defined.
